(** * gscan command line: report rendering and exit code

    A shallow embedding of [bin/cli.js]: flag resolution, the checker
    invocation with its two rejection handlers, the summary line, the
    rendering of one finding, and the report orchestrator with its exit
    code.  Console output is a trace of [ui.log] calls. *)

From Stdlib Require Import String Ascii.
From Stdlib Require Import List NArith ZArith Bool Lia.
Import ListNotations.

Set Implicit Arguments.

Local Open Scope N_scope.

(** ** JavaScript strings

    A JavaScript string is a sequence of UTF-16 code units and [length]
    counts code units, so a string is a list of numbers. *)

Definition code_unit := N.
Definition jsstring := list code_unit.

(** An ASCII literal of the source. *)
Definition lit (s : string) : jsstring :=
  List.map N_of_ascii (list_ascii_of_string s).
Arguments lit s%_string.

Definition LF : code_unit := 10.
Definition CR : code_unit := 13.
Definition ESC : code_unit := 27.

(** [Number.prototype.toString] on a non-negative integer (an array length):
    its decimal digits. *)
Fixpoint digits (u : Decimal.uint) : jsstring :=
  match u with
  | Decimal.Nil => []
  | Decimal.D0 u => 48 :: digits u
  | Decimal.D1 u => 49 :: digits u
  | Decimal.D2 u => 50 :: digits u
  | Decimal.D3 u => 51 :: digits u
  | Decimal.D4 u => 52 :: digits u
  | Decimal.D5 u => 53 :: digits u
  | Decimal.D6 u => 54 :: digits u
  | Decimal.D7 u => 55 :: digits u
  | Decimal.D8 u => 56 :: digits u
  | Decimal.D9 u => 57 :: digits u
  end.

Definition toString (n : nat) : jsstring := digits (Nat.to_uint n).

(** [Array.prototype.join]. *)
Fixpoint join (sep : jsstring) (xs : list jsstring) : jsstring :=
  match xs with
  | [] => []
  | [x] => x
  | x :: rest => x ++ sep ++ join sep rest
  end.

(** ** chalk (external package)

    Whether chalk emits escape sequences is settled when the package loads,
    from the terminal it writes to ([chalk.level]); [enabled] says that it
    does.  A style then wraps a text that is not empty in its SGR opening
    and closing sequences, and closes the styling before every line break
    to reopen it after.  Without colour support, and for the empty text,
    the text comes back as it is.  The program only styles its own literals
    and decimal counts, which hold no escape sequence of their own. *)
Module chalk.

Record style := { open : jsstring; close : jsstring }.

Definition sgr (n : nat) : jsstring :=
  ESC :: lit "[" ++ toString n ++ lit "m".

Definition red := {| open := sgr 31; close := sgr 39 |}.
Definition green := {| open := sgr 32; close := sgr 39 |}.
Definition yellow := {| open := sgr 33; close := sgr 39 |}.
Definition cyan := {| open := sgr 36; close := sgr 39 |}.
Definition bold := {| open := sgr 1; close := sgr 22 |}.
Definition underline := {| open := sgr 4; close := sgr 24 |}.

(** [/\r?\n/g] replaced by close, the match, open. *)
Fixpoint encase (st : style) (s : jsstring) : jsstring :=
  match s with
  | [] => []
  | c :: r =>
      if c =? LF then close st ++ LF :: open st ++ encase st r
      else
        match r with
        | d :: r' =>
            if (c =? CR) && (d =? LF)
            then close st ++ CR :: LF :: open st ++ encase st r'
            else c :: encase st r
        | [] => [c]
        end
  end.

Definition apply (enabled : bool) (st : style) (s : jsstring) : jsstring :=
  match s with
  | [] => []
  | _ :: _ => if enabled then open st ++ encase st s ++ close st else s
  end.

(** A chain such as [chalk.red.bold]: the first style is outermost. *)
Definition styled (enabled : bool) (chain : list style) (s : jsstring)
  : jsstring :=
  fold_right (apply enabled) s chain.

End chalk.

(** ** Console output

    Every call of [ui.log] or [ui.log.error] is one event carrying the
    arguments of the call; a computation returns its value and the events it
    emitted, in order. *)

(** A rejection reason or a thrown value. *)
Record Error := { code : option jsstring; err_message : jsstring }.

Inductive value := VStr (s : jsstring) | VErr (e : Error).

Inductive event := Log (args : list value) | LogError (args : list value).

Definition IO (A : Type) : Type := (A * list event)%type.

Definition ret {A} (a : A) : IO A := (a, []).

Definition bind {A B} (m : IO A) (k : A -> IO B) : IO B :=
  let (a, out1) := m in
  let (b, out2) := k a in
  (b, out1 ++ out2).

Notation "x <- m ;; k" := (bind m (fun x => k))
  (at level 61, m at next level, right associativity).
Notation "m ;; k" := (bind m (fun _ => k))
  (at level 61, right associativity).

Module ui.
Definition log (args : list value) : IO unit := (tt, [Log args]).
Definition log_error (args : list value) : IO unit := (tt, [LogError args]).
End ui.

(** ** lodash (external package): the functions the program uses *)
Module lodash.

Definition isEmpty {A} (xs : list A) : bool :=
  match xs with [] => true | _ => false end.

(** [_.repeat(string, n)]: the empty string when [n < 1]. *)
Definition repeat (s : jsstring) (n : Z) : jsstring :=
  concat (List.repeat s (Z.to_nat n)).

Definition toUpper (c : code_unit) : code_unit :=
  if (97 <=? c) && (c <=? 122) then c - 32 else c.
Definition toLower (c : code_unit) : code_unit :=
  if (65 <=? c) && (c <=? 90) then c + 32 else c.

(** [_.capitalize]: first character upper case, the rest lower case
    (on the ASCII letters). *)
Definition capitalize (s : jsstring) : jsstring :=
  match s with
  | [] => []
  | c :: r => toUpper (toLower c) :: List.map toLower r
  end.

Definition map {A B} (xs : list A) (f : A -> B) : list B := List.map f xs.

Fixpoint each {A} (xs : list A) (f : A -> IO unit) : IO unit :=
  match xs with
  | [] => ret tt
  | x :: rest => f x ;; each rest f
  end.

End lodash.

(** ** pluralize (external package)

    [pluralize(word, count, inclusive)]; both words of the program take the
    regular plural in s. *)
Definition plural (word : jsstring) : jsstring := word ++ lit "s".

Definition pluralize (word : jsstring) (count : nat) (inclusive : bool)
  : jsstring :=
  let pluralized := if Nat.eqb count 1 then word else plural word in
  (if inclusive then toString count ++ lit " " else []) ++ pluralized.

(** ** Data model *)

Inductive Level := error | warning | recommendation | feature.

Definition level_name (l : Level) : jsstring :=
  match l with
  | error => lit "error"
  | warning => lit "warning"
  | recommendation => lit "recommendation"
  | feature => lit "feature"
  end.

Record FailureRef := { ref : jsstring; message : jsstring }.

(** [details] and [failures] may be missing ([undefined]). *)
Record Finding := {
  rule : jsstring;
  level : Level;
  details : option jsstring;
  failures : option (list FailureRef)
}.

Record Results := {
  r_error : list Finding;
  r_warning : list Finding;
  r_recommendation : list Finding;
  r_feature : list Finding
}.

Record ThemeResult := { checkedVersion : jsstring; results : Results }.

Record Options := {
  format_ : jsstring;
  checkVersion : jsstring;
  verbose : bool;
  onlyFatalErrors : bool
}.

Record Argv := {
  themePath : jsstring;
  zip : bool;
  v1 : bool; v2 : bool; v3 : bool; v4 : bool; canary : bool;
  fatal : bool;
  arg_verbose : bool
}.

(** ** The external checker ([lib/], not part of these sources) *)

(** Modelled from the spec: [gscan.format] is missing; it may fail, and it
    works on the result object in place ("mutated in place by the Result
    Formatter Bridge").  When it returns, its return value replaces [theme];
    when it throws, [theme] still names the object that was passed in, in
    the state the call left it. *)
Inductive format_outcome :=
| Returns (formatted : ThemeResult)
| Throws (err : Error) (after : ThemeResult).

(** Modelled from the spec: [gscan.check] and [gscan.checkZip] are missing;
    both are asynchronous and may fail, so a call is the promise it returns,
    once settled.  The program loads no promise library: the promise is the
    built-in one. *)
Inductive settled (A : Type) :=
| Fulfilled (a : A)
| Rejected (e : Error).
Arguments Fulfilled {A} a.
Arguments Rejected {A} e.

(** [Promise.prototype.catch] of the built-in promise, on a rejection: its
    one parameter [onRejected] is called with the reason and its result
    fulfils the promise; an argument after the first is not looked at. *)
Definition promise_catch {A B} (onRejected : Error -> IO A)
    (second : Error -> IO B) (reason : Error) : IO A :=
  onRejected reason.

(** How the handler of [parseAndExit] ends: [process.exit] was called, or
    the promise chain settled and the process is left to end by itself. *)
Inductive ending :=
| Exit (status : Z)
| Settled.

Fixpoint eqb (a b : jsstring) : bool :=
  match a, b with
  | [], [] => true
  | x :: a', y :: b' => (x =? y) && eqb a' b'
  | _, _ => false
  end.

Definition ENOTDIRPredicate (err : Error) : bool :=
  match code err with
  | Some c => eqb c (lit "ENOTDIR")
  | None => false
  end.

(** Lines 93 to 96: the second function handed to [catch] in the directory
    branch. *)
Definition hint_handler (err : Error) : IO unit :=
  ui.log [VStr (err_message err)] ;;
  ui.log [VStr (lit "Did you mean to add the -z flag to read a zip file?")].

(** Lines 58 to 74: the module-level [options] after the flags are read. *)
Definition resolve (argv : Argv) : Options :=
  {| format_ := lit "cli";
     checkVersion :=
       if v1 argv then lit "v1"
       else if v2 argv then lit "v2"
       else if v3 argv then lit "v3"
       else if v4 argv then lit "v4"
       else if canary argv then lit "canary"
       else lit "latest";
     verbose := arg_verbose argv;
     onlyFatalErrors := fatal argv |}.

Section Colour.

(** Whether the terminal supports colours, as chalk found it when it was
    loaded. *)
Variable colour : bool.

(** ** [getSummary] *)

Definition checkSymbol : jsstring := [10003].
Definition hiddenSymbols : Z := 38.

Definition getSummary (theme : ThemeResult) (options : Options) : jsstring :=
  let errorCount := length (r_error (results theme)) in
  let warnCount := length (r_warning (results theme)) in
  if Nat.eqb errorCount 0 && Nat.eqb warnCount 0 then
    if onlyFatalErrors options then
      chalk.styled colour [chalk.green] checkSymbol
        ++ lit " Your theme has no fatal compatibility issues with Ghost "
        ++ checkedVersion theme
    else
      chalk.styled colour [chalk.green] checkSymbol
        ++ lit " Your theme is compatible with Ghost "
        ++ checkedVersion theme
  else
    let summaryText := lit "Your theme has" in
    let summaryText :=
      if negb (lodash.isEmpty (r_error (results theme))) then
        summaryText ++ chalk.styled colour [chalk.red; chalk.bold]
          (lit " " ++ pluralize (lit "error")
                                (length (r_error (results theme))) true)
      else summaryText in
    let summaryText :=
      if negb (lodash.isEmpty (r_error (results theme)))
         && negb (lodash.isEmpty (r_warning (results theme)))
      then summaryText ++ lit " and"
      else summaryText in
    let summaryText :=
      if negb (lodash.isEmpty (r_warning (results theme))) then
        summaryText ++ chalk.styled colour [chalk.yellow; chalk.bold]
          (lit " " ++ pluralize (lit "warning")
                                (length (r_warning (results theme))) true)
      else summaryText in
    let summaryText := summaryText ++ lit "!" in
    summaryText
      ++ (LF :: lodash.repeat (lit "-")
                  (Z.of_nat (length summaryText) - hiddenSymbols)).

(** ** [outputResult] *)

(** The severity palette. *)
Definition levels (l : Level) : chalk.style :=
  match l with
  | error => chalk.red
  | warning => chalk.yellow
  | recommendation => chalk.yellow
  | feature => chalk.green
  end.

(** A possibly missing string inside a template literal. *)
Definition interpolate (s : option jsstring) : jsstring :=
  match s with
  | Some s => s
  | None => lit "undefined"
  end.

(** [outputResult] takes one parameter and reads the module-level [options]
    object, passed here as its first argument. *)
Definition outputResult (options : Options) (result : Finding) : IO unit :=
  ui.log [VStr (chalk.styled colour [levels (level result)]
                  (lit "- " ++ lodash.capitalize (level_name (level result))
                     ++ lit ":"));
          VStr (rule result)] ;;
  (if verbose options then
     ui.log [VStr (chalk.styled colour [chalk.bold] (LF :: lit "Details:")
                     ++ lit " " ++ interpolate (details result))]
   else ret tt) ;;
  (match failures result with
   | Some fs =>
       if negb (Nat.eqb (length fs) 0) then
         if verbose options then
           ui.log [VStr []] ;;
           ui.log [VStr (chalk.styled colour [chalk.bold] (lit "Files:"))] ;;
           lodash.each fs (fun failure =>
             ui.log [VStr (ref failure ++ lit " - " ++ message failure)])
         else
           ui.log [VStr (chalk.styled colour [chalk.bold] (lit "Files:") ++ lit " "
                           ++ join (lit ",") (lodash.map fs ref))]
       else ret tt
   | None => ret tt
   end) ;;
  ui.log [VStr []].

Section Cli.

Variable format : ThemeResult -> Options -> format_outcome.
Variables check checkZip : jsstring -> Options -> settled ThemeResult.

(** ** [outputResults]

    [module_options] is the module-level object [outputResult] reads;
    the value returned is the argument of [process.exit]. *)
Definition outputResults (module_options : Options)
    (theme : ThemeResult) (options : Options) : IO Z :=
  theme <- match format theme options with
           | Returns formatted => ret formatted
           | Throws err after =>
               ui.log_error
                 [VStr (lit "Error formating result, some results may be missing.")] ;;
               ui.log_error [VErr err] ;;
               ret after
           end ;;
  let errorCount := length (r_error (results theme)) in
  ui.log [VStr (LF :: getSummary theme options)] ;;
  (if negb (lodash.isEmpty (r_error (results theme))) then
     ui.log [VStr (chalk.styled colour [chalk.red; chalk.bold] (LF :: lit "Errors"))] ;;
     ui.log [VStr (chalk.styled colour [chalk.red; chalk.bold] (lit "------"))] ;;
     ui.log [VStr (chalk.styled colour [chalk.red]
               (lit "Important to fix, functionality may be degraded."
                  ++ [LF]))] ;;
     lodash.each (r_error (results theme))
                 (fun rule => outputResult module_options rule)
   else ret tt) ;;
  (if negb (lodash.isEmpty (r_warning (results theme))) then
     ui.log [VStr (chalk.styled colour [chalk.yellow; chalk.bold] (LF :: lit "Warnings"))] ;;
     ui.log [VStr (chalk.styled colour [chalk.yellow; chalk.bold] (lit "--------"))] ;;
     lodash.each (r_warning (results theme))
                 (fun rule => outputResult module_options rule)
   else ret tt) ;;
  (if negb (lodash.isEmpty (r_recommendation (results theme))) then
     ui.log [VStr (chalk.styled colour [chalk.yellow; chalk.bold]
               (LF :: lit "Recommendations"))] ;;
     ui.log [VStr (chalk.styled colour [chalk.yellow; chalk.bold]
               (lit "---------------"))] ;;
     lodash.each (r_recommendation (results theme))
                 (fun rule => outputResult module_options rule)
   else ret tt) ;;
  ui.log [VStr (LF :: lit "Get more help at "
            ++ chalk.styled colour [chalk.cyan; chalk.underline]
                 (lit "https://ghost.org/docs/api/handlebars-themes/"))] ;;
  ui.log [VStr (lit "You can also check theme compatibility at "
            ++ chalk.styled colour [chalk.cyan; chalk.underline]
                 (lit "https://gscan.ghost.org/"))] ;;
  if (0 <? errorCount)%nat then ret 1%Z else ret 0%Z.

(** ** The handler of [parseAndExit]

    The directory branch hands two functions to [catch]: the built-in
    promise takes the first, [ENOTDIRPredicate], as the handler of the
    rejection and never calls the second. *)
Definition main (argv : Argv) : IO ending :=
  let options := resolve argv in
  (if onlyFatalErrors options then
     ui.log [VStr (chalk.styled colour [chalk.bold]
               (LF :: lit "Checking theme compatibility (fatal issues only)..."))]
   else
     ui.log [VStr (chalk.styled colour [chalk.bold]
               (LF :: lit "Checking theme compatibility..."))]) ;;
  if zip argv then
    match checkZip (themePath argv) options with
    | Fulfilled theme =>
        status <- outputResults options theme options ;;
        ret (Exit status)
    | Rejected error_ =>
        ui.log [VErr error_] ;;
        ret Settled
    end
  else
    match check (themePath argv) options with
    | Fulfilled theme =>
        status <- outputResults options theme options ;;
        ret (Exit status)
    | Rejected err =>
        promise_catch (fun err => ret (ENOTDIRPredicate err)) hint_handler
                      err ;;
        ret Settled
    end.

End Cli.

(** ** Reading the output *)

(** The visible text of a styled string: every escape sequence, from [ESC]
    to its final [m], is dropped. *)
Fixpoint strip_from (inside : bool) (s : jsstring) : jsstring :=
  match s with
  | [] => []
  | c :: r =>
      if inside then strip_from (negb (c =? 109)) r
      else if c =? ESC then strip_from true r
      else c :: strip_from false r
  end.

Definition visible (s : jsstring) : jsstring := strip_from false s.

(** [String.prototype.startsWith] and [String.prototype.includes]. *)
Fixpoint startsWith (s prefix : jsstring) : bool :=
  match prefix, s with
  | [], _ => true
  | x :: prefix', y :: s' => (x =? y) && startsWith s' prefix'
  | _ :: _, [] => false
  end.

Fixpoint includes (s needle : jsstring) : bool :=
  startsWith s needle
  || match s with
     | [] => false
     | _ :: r => includes r needle
     end.

(** [free x s]: the code unit [x] does not occur in [s]. *)
Definition free (x : code_unit) (s : jsstring) : bool :=
  forallb (fun c => negb (c =? x)) s.

(** Number of line breaks of a string. *)
Definition line_breaks (s : jsstring) : nat := count_occ N.eq_dec s LF.

Definition dash : code_unit := 45.

(** The summary sentence as the specification words it: the phrase for a
    count, and the sentence before and after styling. *)
Definition count_phrase (word : jsstring) (n : nat) : jsstring :=
  if Nat.eqb n 1 then lit "1 " ++ word
  else toString n ++ lit " " ++ word ++ lit "s".

Definition plain_sentence (e w : nat) : jsstring :=
  lit "Your theme has"
    ++ (if (0 <? e)%nat then lit " " ++ count_phrase (lit "error") e else [])
    ++ (if (0 <? e)%nat && (0 <? w)%nat then lit " and" else [])
    ++ (if (0 <? w)%nat then lit " " ++ count_phrase (lit "warning") w else [])
    ++ lit "!".

Definition styled_sentence (e w : nat) : jsstring :=
  lit "Your theme has"
    ++ (if (0 <? e)%nat
        then chalk.styled colour [chalk.red; chalk.bold]
               (lit " " ++ count_phrase (lit "error") e)
        else [])
    ++ (if (0 <? e)%nat && (0 <? w)%nat then lit " and" else [])
    ++ (if (0 <? w)%nat
        then chalk.styled colour [chalk.yellow; chalk.bold]
               (lit " " ++ count_phrase (lit "warning") w)
        else [])
    ++ lit "!".

(** First-match resolution over a priority list, as the specification words
    the version precedence. *)
Fixpoint first_match (flags : list (bool * jsstring)) (default : jsstring)
  : jsstring :=
  match flags with
  | [] => default
  | (flag, version) :: rest =>
      if flag then version else first_match rest default
  end.

(** The lines of a rendered finding, as the specification words them. *)
Definition label_text (l : Level) : jsstring :=
  match l with
  | error => lit "- Error:"
  | warning => lit "- Warning:"
  | recommendation => lit "- Recommendation:"
  | feature => lit "- Feature:"
  end.

Definition label_line (result : Finding) : event :=
  Log [VStr (chalk.styled colour [levels (level result)] (label_text (level result)));
       VStr (rule result)].

Definition details_line (result : Finding) : event :=
  Log [VStr (chalk.styled colour [chalk.bold] (LF :: lit "Details:")
               ++ lit " " ++ interpolate (details result))].

Definition blank_line : event := Log [VStr []].

Definition files_header : event :=
  Log [VStr (chalk.styled colour [chalk.bold] (lit "Files:"))].

Definition failure_line (failure : FailureRef) : event :=
  Log [VStr (ref failure ++ lit " - " ++ message failure)].

(** The refs of a compact "Files:" line: the first one, and a comma before
    each of the others. *)
Definition comma_separated (refs : list jsstring) : jsstring :=
  match refs with
  | [] => []
  | first :: others => first ++ flat_map (fun r => 44 :: r) others
  end.

Definition files_line (refs : list jsstring) : event :=
  Log [VStr (chalk.styled colour [chalk.bold] (lit "Files:") ++ lit " "
               ++ comma_separated refs)].

(** The report and the exit code of a result that the formatter returns as
    it is. *)
Definition report (module_options : Options) (theme : ThemeResult)
    (options : Options) : IO Z :=
  outputResults (fun theme _ => Returns theme) module_options theme options.

(** The result the report is rendered from. *)
Definition rendered (format : ThemeResult -> Options -> format_outcome)
    (theme : ThemeResult) (options : Options) : ThemeResult :=
  match format theme options with
  | Returns formatted => formatted
  | Throws _ after => after
  end.

Definition formatting_errors (err : Error) : list event :=
  [LogError [VStr (lit "Error formating result, some results may be missing.")];
   LogError [VErr err]].

(** The first line the handler prints, and the hint of the directory
    branch. *)
Definition banner (argv : Argv) : event :=
  Log [VStr (chalk.styled colour [chalk.bold]
               (LF :: (if fatal argv
                       then lit "Checking theme compatibility (fatal issues only)..."
                       else lit "Checking theme compatibility...")))].

Definition zip_hint : event :=
  Log [VStr (lit "Did you mean to add the -z flag to read a zip file?")].

(** The version flags of an invocation, in the order of the precedence. *)
Definition version_flags (argv : Argv) : list (bool * jsstring) :=
  [ (v1 argv, lit "v1"); (v2 argv, lit "v2"); (v3 argv, lit "v3");
    (v4 argv, lit "v4"); (canary argv, lit "canary") ].

Definition with_versions (argv : Argv) (f1 f2 f3 f4 fc : bool) : Argv :=
  {| themePath := themePath argv; zip := zip argv;
     v1 := f1; v2 := f2; v3 := f3; v4 := f4; canary := fc;
     fatal := fatal argv; arg_verbose := arg_verbose argv |}.

(** The lines of a finding, and the sections of a report. *)
Definition failure_lines (options : Options) (result : Finding) : list event :=
  match failures result with
  | Some fs =>
      if lodash.isEmpty fs then []
      else if verbose options
           then blank_line :: files_header :: List.map failure_line fs
           else [files_line (List.map ref fs)]
  | None => []
  end.

Definition finding_lines (options : Options) (result : Finding) : list event :=
  label_line result
    :: (if verbose options then [details_line result] else [])
    ++ failure_lines options result ++ [blank_line].

Definition error_header : list event :=
  [ Log [VStr (chalk.styled colour [chalk.red; chalk.bold] (LF :: lit "Errors"))];
    Log [VStr (chalk.styled colour [chalk.red; chalk.bold] (lit "------"))];
    Log [VStr (chalk.styled colour [chalk.red]
                 (lit "Important to fix, functionality may be degraded."
                    ++ [LF]))] ].

Definition warning_header : list event :=
  [ Log [VStr (chalk.styled colour [chalk.yellow; chalk.bold] (LF :: lit "Warnings"))];
    Log [VStr (chalk.styled colour [chalk.yellow; chalk.bold] (lit "--------"))] ].

Definition recommendation_header : list event :=
  [ Log [VStr (chalk.styled colour [chalk.yellow; chalk.bold]
                 (LF :: lit "Recommendations"))];
    Log [VStr (chalk.styled colour [chalk.yellow; chalk.bold]
                 (lit "---------------"))] ].

Definition section (header : list event) (options : Options)
    (bucket : list Finding) : list event :=
  if lodash.isEmpty bucket then []
  else header ++ flat_map (finding_lines options) bucket.

Definition footer : list event :=
  [ Log [VStr (LF :: lit "Get more help at "
                 ++ chalk.styled colour [chalk.cyan; chalk.underline]
                      (lit "https://ghost.org/docs/api/handlebars-themes/"))];
    Log [VStr (lit "You can also check theme compatibility at "
                 ++ chalk.styled colour [chalk.cyan; chalk.underline]
                      (lit "https://gscan.ghost.org/"))] ].

(** A label line is the only call of [ui.log] with two arguments. *)
Definition is_label (ev : event) : bool :=
  match ev with
  | Log [_; _] => true
  | _ => false
  end.

Definition is_error_log (ev : event) : bool :=
  match ev with
  | LogError _ => true
  | Log _ => false
  end.

(** The entry point of the checker the handler calls for an invocation. *)
Definition selected (check checkZip : jsstring -> Options -> settled ThemeResult)
    (argv : Argv) : settled ThemeResult :=
  if zip argv then checkZip (themePath argv) (resolve argv)
  else check (themePath argv) (resolve argv).

Definition with_features (theme : ThemeResult) (features : list Finding)
  : ThemeResult :=
  {| checkedVersion := checkedVersion theme;
     results := {| r_error := r_error (results theme);
                   r_warning := r_warning (results theme);
                   r_recommendation := r_recommendation (results theme);
                   r_feature := features |} |}.

(** ** Sample inputs *)

Definition cli_options (v : bool) : Options :=
  {| format_ := lit "cli"; checkVersion := lit "latest";
     verbose := v; onlyFatalErrors := false |}.

Definition bare_finding : Finding :=
  {| rule := lit "GS001-DEPR-PURL"; level := error;
     details := None; failures := None |}.

Definition two_failures : list FailureRef :=
  [ {| ref := lit "index.hbs"; message := lit "first" |};
    {| ref := lit "post.hbs"; message := lit "second" |} ].

Definition finding_with_failures : Finding :=
  {| rule := lit "GS001-DEPR-PURL"; level := warning;
     details := Some (lit "Replace the helper.");
     failures := Some two_failures |}.

Definition theme_of (errors warnings : list Finding) : ThemeResult :=
  {| checkedVersion := lit "4.x";
     results := {| r_error := errors; r_warning := warnings;
                   r_recommendation := []; r_feature := [] |} |}.

(** A formatter that empties the error bucket of the object it was given and
    then throws. *)
Definition thrown : Error :=
  {| code := None; err_message := lit "Cannot read property" |}.

Definition format_half_done (theme : ThemeResult) (_ : Options)
  : format_outcome :=
  Throws thrown
    {| checkedVersion := checkedVersion theme;
       results := {| r_error := [];
                     r_warning := r_warning (results theme);
                     r_recommendation := r_recommendation (results theme);
                     r_feature := r_feature (results theme) |} |}.

(** A formatter that throws before it touches the object. *)
Definition format_fails_early (theme : ThemeResult) (_ : Options)
  : format_outcome :=
  Throws thrown theme.

Definition not_a_directory : Error :=
  {| code := Some (lit "ENOTDIR");
     err_message := lit "ENOTDIR: not a directory, scandir 'theme.zip'" |}.

Definition no_such_file : Error :=
  {| code := Some (lit "ENOENT");
     err_message := lit "ENOENT: no such file or directory" |}.

Definition argv_of (z : bool) : Argv :=
  {| themePath := lit "theme.zip"; zip := z;
     v1 := false; v2 := false; v3 := false; v4 := false; canary := false;
     fatal := false; arg_verbose := false |}.

(** * Properties *)

(** ** Strings *)

Lemma free_app x a b : free x (a ++ b) = free x a && free x b.
Proof. apply forallb_app. Qed.

Lemma free_cons x c s : free x (c :: s) = negb (c =? x) && free x s.
Proof. reflexivity. Qed.

Lemma digits_free x u : (x <? 48) || (57 <? x) = true -> free x (digits u) = true.
Proof.
  intros Hx.
  assert (Hne : forall d, 48 <= d <= 57 -> negb (d =? x) = true).
  { intros d Hd. apply negb_true_iff, N.eqb_neq. intros ->.
    apply orb_true_iff in Hx. destruct Hx as [Hx | Hx];
      apply N.ltb_lt in Hx; lia. }
  induction u; cbn [digits]; try reflexivity;
    rewrite free_cons, IHu, andb_true_r; apply Hne; lia.
Qed.

Lemma toString_free x n : (x <? 48) || (57 <? x) = true -> free x (toString n) = true.
Proof. apply digits_free. Qed.

Lemma strip_plain a b :
  free ESC a = true -> strip_from false (a ++ b) = a ++ strip_from false b.
Proof.
  induction a as [| c a IH]; intros H; [reflexivity |].
  rewrite free_cons in H. apply andb_true_iff in H. destruct H as [Hc Ha].
  cbn [app strip_from]. apply negb_true_iff in Hc. rewrite Hc.
  now rewrite IH.
Qed.

Lemma strip_inside a b :
  free 109 a = true ->
  strip_from true (a ++ 109 :: b) = strip_from false b.
Proof.
  induction a as [| c a IH]; intros H; [reflexivity |].
  rewrite free_cons in H. apply andb_true_iff in H. destruct H as [Hc Ha].
  cbn [app strip_from]. rewrite Hc. now apply IH.
Qed.

Lemma strip_sgr n b : strip_from false (chalk.sgr n ++ b) = strip_from false b.
Proof.
  unfold chalk.sgr. cbn [lit list_ascii_of_string List.map app].
  rewrite <- app_assoc. cbn [strip_from app].
  change (ESC =? ESC) with true. cbv iota.
  change (N_of_ascii "[" =? 109) with false. cbn [negb].
  change (N_of_ascii "m") with 109.
  apply strip_inside, toString_free. reflexivity.
Qed.

Lemma sgr_free_LF n : free LF (chalk.sgr n) = true.
Proof.
  unfold chalk.sgr. rewrite free_cons, !free_app, toString_free; reflexivity.
Qed.

Lemma sgr_length n : length (chalk.sgr n) = (length (toString n) + 3)%nat.
Proof.
  unfold chalk.sgr. cbn [length]. rewrite !length_app. cbn. lia.
Qed.

(** ** Styling *)

Lemma encase_free st s : free LF s = true -> chalk.encase st s = s.
Proof.
  induction s as [| c r IH]; intros H; [reflexivity |].
  rewrite free_cons in H. apply andb_true_iff in H. destruct H as [Hc Hr].
  specialize (IH Hr). apply negb_true_iff in Hc.
  destruct r as [| d r'].
  - cbn [chalk.encase]. now rewrite Hc.
  - rewrite free_cons in Hr. apply andb_true_iff in Hr. destruct Hr as [Hd _].
    apply negb_true_iff in Hd.
    change (chalk.encase st (c :: d :: r'))
      with (if c =? LF
            then chalk.close st ++ LF :: chalk.open st
                   ++ chalk.encase st (d :: r')
            else if (c =? CR) && (d =? LF)
                 then chalk.close st ++ CR :: LF :: chalk.open st
                        ++ chalk.encase st r'
                 else c :: chalk.encase st (d :: r')).
    rewrite Hc, Hd, andb_false_r. now rewrite IH.
Qed.

Lemma apply_off st s : chalk.apply false st s = s.
Proof. now destruct s. Qed.

Lemma styled_off chain s : chalk.styled false chain s = s.
Proof.
  induction chain as [| st chain IH]; [reflexivity |].
  cbn [chalk.styled fold_right]. fold (chalk.styled false chain s).
  now rewrite IH, apply_off.
Qed.

Lemma apply_free st s :
  s <> [] -> free LF s = true ->
  chalk.apply true st s = chalk.open st ++ s ++ chalk.close st.
Proof.
  intros Hs H. unfold chalk.apply. destruct s as [| c r]; [congruence |].
  now rewrite encase_free.
Qed.

(** A two-style chain over a text without line break: two opening and two
    closing sequences around the text. *)
Lemma styled2_free n1 m1 n2 m2 s :
  s <> [] -> free LF s = true ->
  chalk.styled true
    [ {| chalk.open := chalk.sgr n1; chalk.close := chalk.sgr m1 |};
      {| chalk.open := chalk.sgr n2; chalk.close := chalk.sgr m2 |} ] s
  = chalk.sgr n1 ++ chalk.sgr n2 ++ s ++ chalk.sgr m2 ++ chalk.sgr m1.
Proof.
  intros Hs H. cbn [chalk.styled fold_right].
  rewrite (apply_free _ Hs H). cbn [chalk.open chalk.close].
  rewrite apply_free.
  - cbn [chalk.open chalk.close]. now rewrite <- !app_assoc.
  - unfold chalk.sgr. discriminate.
  - now rewrite !free_app, !sgr_free_LF, H.
Qed.

Lemma red_bold_length s :
  s <> [] -> free LF s = true ->
  length (chalk.styled colour [chalk.red; chalk.bold] s)
  = (length s + if colour then 19 else 0)%nat.
Proof.
  intros Hs H. destruct colour.
  - unfold chalk.red, chalk.bold. rewrite styled2_free by assumption.
    rewrite !length_app, !sgr_length. cbn. lia.
  - rewrite styled_off. lia.
Qed.

Lemma yellow_bold_length s :
  s <> [] -> free LF s = true ->
  length (chalk.styled colour [chalk.yellow; chalk.bold] s)
  = (length s + if colour then 19 else 0)%nat.
Proof.
  intros Hs H. destruct colour.
  - unfold chalk.yellow, chalk.bold. rewrite styled2_free by assumption.
    rewrite !length_app, !sgr_length. cbn. lia.
  - rewrite styled_off. lia.
Qed.

(** ** Counts *)

Lemma pluralize_count_phrase word n :
  pluralize word n true = count_phrase word n.
Proof.
  unfold pluralize, count_phrase, plural.
  destruct (Nat.eqb_spec n 1) as [-> | _].
  - reflexivity.
  - now rewrite <- !app_assoc.
Qed.

Lemma count_phrase_free x word n :
  x = LF \/ x = ESC -> free x word = true ->
  free x (lit " " ++ count_phrase word n) = true.
Proof.
  intros Hx Hw. unfold count_phrase.
  destruct (Nat.eqb n 1); rewrite !free_app, Hw.
  - destruct Hx as [-> | ->]; reflexivity.
  - rewrite toString_free by (destruct Hx as [-> | ->]; reflexivity).
    destruct Hx as [-> | ->]; reflexivity.
Qed.

Lemma repeat_dash z : lodash.repeat (lit "-") z = List.repeat dash (Z.to_nat z).
Proof.
  unfold lodash.repeat. induction (Z.to_nat z) as [| k IH]; [reflexivity |].
  cbn [List.repeat concat]. now rewrite IH.
Qed.

(** ** The summary *)

Lemma strip_styled2_app n1 m1 n2 m2 s b :
  s <> [] -> free LF s = true -> free ESC s = true ->
  strip_from false
    (chalk.styled colour
       [ {| chalk.open := chalk.sgr n1; chalk.close := chalk.sgr m1 |};
         {| chalk.open := chalk.sgr n2; chalk.close := chalk.sgr m2 |} ] s
       ++ b)
  = s ++ strip_from false b.
Proof.
  intros Hs HLF HESC. destruct colour.
  - rewrite styled2_free by assumption.
    rewrite <- !app_assoc, !strip_sgr, strip_plain by assumption.
    now rewrite !strip_sgr.
  - rewrite styled_off. now apply strip_plain.
Qed.

Lemma phrase_nonempty word n : lit " " ++ count_phrase word n <> [].
Proof. discriminate. Qed.

(** With an error or a warning, the summary is the styled sentence, a line
    break and the dashes. *)
Lemma getSummary_issues theme options :
  let e := length (r_error (results theme)) in
  let w := length (r_warning (results theme)) in
  (0 < e \/ 0 < w)%nat ->
  getSummary theme options
  = styled_sentence e w
      ++ LF :: List.repeat dash
                 (Z.to_nat (Z.of_nat (length (styled_sentence e w))
                            - hiddenSymbols)).
Proof.
  unfold getSummary, styled_sentence.
  destruct (r_error (results theme)) as [| x xs],
           (r_warning (results theme)) as [| y ys];
    cbn [length Nat.eqb andb lodash.isEmpty negb Nat.ltb Nat.leb];
    intros H.
  - lia.
  - rewrite repeat_dash, pluralize_count_phrase.
    cbn [app]. now rewrite <- !app_assoc.
  - rewrite repeat_dash, pluralize_count_phrase.
    cbn [app]. now rewrite <- !app_assoc, ?app_nil_r.
  - rewrite repeat_dash, !pluralize_count_phrase.
    cbn [app]. now rewrite <- !app_assoc.
Qed.

Lemma strip_styled_sentence e w b :
  strip_from false (styled_sentence e w ++ b)
  = plain_sentence e w ++ strip_from false b.
Proof.
  unfold styled_sentence, plain_sentence. rewrite <- !app_assoc.
  rewrite strip_plain by reflexivity. f_equal.
  assert (Hred : forall word n c,
             free LF word = true -> free ESC word = true ->
             strip_from false
               (chalk.styled colour [chalk.red; chalk.bold]
                  (lit " " ++ count_phrase word n) ++ c)
             = (lit " " ++ count_phrase word n) ++ strip_from false c).
  { intros. apply strip_styled2_app;
      [apply phrase_nonempty | apply count_phrase_free; auto ..]. }
  assert (Hyellow : forall word n c,
             free LF word = true -> free ESC word = true ->
             strip_from false
               (chalk.styled colour [chalk.yellow; chalk.bold]
                  (lit " " ++ count_phrase word n) ++ c)
             = (lit " " ++ count_phrase word n) ++ strip_from false c).
  { intros. apply strip_styled2_app;
      [apply phrase_nonempty | apply count_phrase_free; auto ..]. }
  destruct (0 <? e)%nat, (0 <? w)%nat; cbn [andb app];
    rewrite ?Hred, ?Hyellow by reflexivity;
    rewrite ?(strip_plain (lit " and")) by reflexivity;
    rewrite ?Hred, ?Hyellow by reflexivity;
    rewrite (strip_plain (lit "!")) by reflexivity;
    now rewrite <- ?app_assoc.
Qed.

Lemma visible_styled_sentence e w :
  visible (styled_sentence e w) = plain_sentence e w.
Proof.
  unfold visible. rewrite <- (app_nil_r (styled_sentence e w)).
  rewrite strip_styled_sentence. apply app_nil_r.
Qed.

Lemma styled_sentence_free_LF e w : free LF (styled_sentence e w) = true.
Proof.
  assert (H : forall n1 word n,
             free LF word = true ->
             free LF (chalk.styled colour
                        [ {| chalk.open := chalk.sgr n1;
                             chalk.close := chalk.sgr 39 |};
                          chalk.bold ] (lit " " ++ count_phrase word n))
             = true).
  { intros n1 word n Hword.
    pose proof (@count_phrase_free LF word n (or_introl eq_refl) Hword) as Ht.
    pose proof (phrase_nonempty word n) as Hne.
    set (t := lit " " ++ count_phrase word n) in *.
    destruct colour.
    - unfold chalk.bold. rewrite styled2_free by assumption.
      now rewrite !free_app, !sgr_free_LF, Ht.
    - now rewrite styled_off. }
  unfold styled_sentence. rewrite !free_app.
  destruct (0 <? e)%nat, (0 <? w)%nat; cbn [andb];
    unfold chalk.red, chalk.yellow; rewrite ?H by reflexivity; reflexivity.
Qed.

Lemma styled_sentence_length e w :
  length (styled_sentence e w)
  = (length (plain_sentence e w)
     + if colour
       then 19 * ((if (0 <? e)%nat then 1 else 0)
                  + (if (0 <? w)%nat then 1 else 0))
       else 0)%nat.
Proof.
  unfold styled_sentence, plain_sentence. rewrite !length_app.
  destruct (0 <? e)%nat, (0 <? w)%nat; cbn [andb];
    rewrite ?red_bold_length, ?yellow_bold_length
      by (try apply phrase_nonempty; apply count_phrase_free; auto);
    cbn [length]; destruct colour; lia.
Qed.

Lemma count_phrase_length word n :
  (length word + 2 <= length (count_phrase word n))%nat.
Proof.
  unfold count_phrase. destruct (Nat.eqb n 1); rewrite !length_app; cbn; lia.
Qed.

Lemma plain_sentence_length e w :
  (0 < e \/ 0 < w)%nat -> (23 <= length (plain_sentence e w))%nat.
Proof.
  intros H. unfold plain_sentence. rewrite !length_app.
  pose proof (count_phrase_length (lit "error") e) as He.
  pose proof (count_phrase_length (lit "warning") w) as Hw.
  destruct (Nat.ltb_spec 0 e), (Nat.ltb_spec 0 w); cbn [andb];
    rewrite ?length_app; cbn in *; lia.
Qed.

(** C6: with an error or a warning, the summary starts with the sentence
    "Your theme has", the styled count of errors when there is one, the word
    "and" when there are both, the styled count of warnings when there is
    one, and "!"; the counts read "1 error" or "N errors"; with 2 errors and
    3 warnings the visible summary contains "2 errors and 3 warnings!". *)
Theorem getSummary_sentence theme options :
  let e := length (r_error (results theme)) in
  let w := length (r_warning (results theme)) in
  (0 < e \/ 0 < w)%nat ->
  (exists underline,
      getSummary theme options = styled_sentence e w ++ LF :: underline
      /\ free LF (styled_sentence e w) = true)
  /\ visible (styled_sentence e w) = plain_sentence e w
  /\ (e = 2%nat -> w = 3%nat ->
      includes (visible (getSummary theme options))
               (lit "2 errors and 3 warnings!") = true).
Proof.
  intros e w H. pose proof (getSummary_issues theme options H) as Hs.
  fold e w in Hs. split; [| split].
  - eexists. split; [exact Hs | apply styled_sentence_free_LF].
  - apply visible_styled_sentence.
  - intros He Hw. rewrite Hs, He, Hw. unfold styled_sentence.
    destruct colour; vm_compute; reflexivity.
Qed.


(** C10, as the code has it: with colour support, when exactly one of the
    two counts is positive, a single styled phrase adds 19 invisible
    characters, the constant subtracted is still 38, and the line of dashes
    is 19 shorter than the visible sentence. *)
Theorem getSummary_underline_single_phrase theme options :
  let e := length (r_error (results theme)) in
  let w := length (r_warning (results theme)) in
  colour = true ->
  (0 < e /\ w = 0)%nat \/ (e = 0 /\ 0 < w)%nat ->
  exists summaryText k,
    getSummary theme options = summaryText ++ LF :: List.repeat dash k
    /\ free LF summaryText = true
    /\ length summaryText = (length (visible summaryText) + 19)%nat
    /\ Z.of_nat k = (Z.of_nat (length summaryText) - 38)%Z
    /\ length (visible summaryText) = (k + 19)%nat.
Proof.
  intros e w Hc H.
  assert (H' : (0 < e \/ 0 < w)%nat) by lia.
  pose proof (getSummary_issues theme options H') as Hs. fold e w in Hs.
  exists (styled_sentence e w). eexists. split; [exact Hs |].
  split; [apply styled_sentence_free_LF |].
  pose proof (plain_sentence_length H') as Hlen.
  rewrite visible_styled_sentence, styled_sentence_length, Hc.
  unfold hiddenSymbols.
  destruct (Nat.ltb_spec 0 e), (Nat.ltb_spec 0 w); lia.
Qed.

(** C7: without error and warning, the summary is one success line: the
    check mark U+2713, green when colours are supported, the wording chosen
    by [onlyFatalErrors], and the checked version; no line break and no
    underline is added. *)
Theorem getSummary_success theme options :
  length (r_error (results theme)) = 0%nat ->
  length (r_warning (results theme)) = 0%nat ->
  getSummary theme options
  = chalk.styled colour [chalk.green] [10003]
      ++ (if onlyFatalErrors options
          then lit " Your theme has no fatal compatibility issues with Ghost "
          else lit " Your theme is compatible with Ghost ")
      ++ checkedVersion theme
  /\ visible (getSummary theme options)
     = 10003
         :: (if onlyFatalErrors options
             then lit " Your theme has no fatal compatibility issues with Ghost "
             else lit " Your theme is compatible with Ghost ")
         ++ visible (checkedVersion theme)
  /\ includes (getSummary theme options) [10003] = true
  /\ line_breaks (getSummary theme options)
     = line_breaks (checkedVersion theme).
Proof.
  intros He Hw. unfold getSummary. rewrite He, Hw. cbn [Nat.eqb andb].
  destruct colour, (onlyFatalErrors options);
    (split; [reflexivity |]); (split; [reflexivity |]);
    (split; [reflexivity |]);
    unfold line_breaks; now rewrite !count_occ_app.
Qed.

(** ** One finding *)

Lemma bind_eq A B (m : IO A) (k : A -> IO B) :
  bind m k = (fst (k (fst m)), snd m ++ snd (k (fst m))).
Proof. unfold bind. destruct m as [a out1]. cbn. now destruct (k a). Qed.

Lemma snd_each A (xs : list A) (line : A -> event) :
  snd (lodash.each xs (fun x => (tt, [line x]))) = List.map line xs.
Proof.
  induction xs as [| x rest IH]; [reflexivity |].
  cbn [lodash.each List.map]. rewrite bind_eq. cbn [fst snd app]. now rewrite IH.
Qed.

Lemma label_text_capitalize l :
  lit "- " ++ lodash.capitalize (level_name l) ++ lit ":" = label_text l.
Proof. destruct l; reflexivity. Qed.

Lemma snd_each_flat_map A (xs : list A) (f : A -> IO unit) :
  snd (lodash.each xs f) = flat_map (fun x => snd (f x)) xs.
Proof.
  induction xs as [| x rest IH]; [reflexivity |].
  cbn [lodash.each flat_map]. rewrite bind_eq. cbn [snd]. now rewrite IH.
Qed.

Lemma join_comma refs : join (lit ",") refs = comma_separated refs.
Proof.
  destruct refs as [| first others]; [reflexivity |].
  revert first. induction others as [| r others IH]; intros first.
  - cbn. now rewrite app_nil_r.
  - change (join (lit ",") (first :: r :: others))
      with (first ++ lit "," ++ join (lit ",") (r :: others)).
    rewrite IH. reflexivity.
Qed.

(** The trace of [outputResult], line by line. *)
Lemma outputResult_trace options result :
  snd (outputResult options result) = finding_lines options result.
Proof.
  unfold outputResult, finding_lines, failure_lines.
  rewrite label_text_capitalize.
  destruct (verbose options), (failures result) as [[| f fs] |];
    unfold lodash.map; rewrite ?join_comma; try reflexivity.
  cbn [length Nat.eqb negb lodash.isEmpty].
  rewrite !bind_eq. cbn [fst snd ui.log app].
  change (fun failure : FailureRef =>
            ui.log [VStr (ref failure ++ lit " - " ++ message failure)])
    with (fun failure : FailureRef => (tt, [failure_line failure])).
  now rewrite snd_each.
Qed.

(** C8: a finding with failures is rendered, in compact mode, with one
    "Files:" line of its refs, the first one and a comma before each of the
    others, and in verbose mode with a "Files:" header followed by one line
    "ref - message" per failure, in their order. *)
Theorem outputResult_failures options result fs :
  failures result = Some fs -> fs <> [] ->
  snd (outputResult options result)
  = if verbose options then
      [label_line result; details_line result; blank_line; files_header]
        ++ List.map failure_line fs ++ [blank_line]
    else
      [label_line result;
       Log [VStr (chalk.styled colour [chalk.bold] (lit "Files:") ++ lit " "
                    ++ comma_separated (List.map ref fs))];
       blank_line].
Proof.
  intros Hfs Hne. unfold outputResult. rewrite Hfs.
  destruct fs as [| f fs']; [congruence |].
  cbn [length Nat.eqb negb]. rewrite label_text_capitalize.
  destruct (verbose options).
  - rewrite !bind_eq. cbn [fst snd ui.log app].
    change (fun failure : FailureRef =>
              ui.log [VStr (ref failure ++ lit " - " ++ message failure)])
      with (fun failure : FailureRef => (tt, [failure_line failure])).
    rewrite snd_each. reflexivity.
  - unfold lodash.map. rewrite join_comma. reflexivity.
Qed.

(** C9, as the code has it: every finding is rendered as its label line
    first and a blank line last; a finding without details and failures is
    rendered as these two lines in compact mode, and in verbose mode with
    the details line between them, which then reads "Details: undefined". *)
Theorem outputResult_bare options result :
  (exists middle,
      snd (outputResult options result)
      = label_line result :: middle ++ [blank_line])
  /\ (details result = None ->
      failures result = None \/ failures result = Some [] ->
      snd (outputResult options result)
      = if verbose options
        then [label_line result;
              Log [VStr (chalk.styled colour [chalk.bold] (LF :: lit "Details:")
                           ++ lit " undefined")];
              blank_line]
        else [label_line result; blank_line]).
Proof.
  split.
  - destruct (failures result) as [[| f fs] |] eqn:Hfs.
    + unfold outputResult. rewrite Hfs, label_text_capitalize.
      destruct (verbose options).
      * exists [details_line result]. reflexivity.
      * exists []. reflexivity.
    + rewrite outputResult_trace. unfold finding_lines, failure_lines.
      rewrite Hfs. cbn [lodash.isEmpty].
      destruct (verbose options).
      * exists ([details_line result; blank_line; files_header]
                  ++ List.map failure_line (f :: fs)).
        reflexivity.
      * exists [files_line (List.map ref (f :: fs))]. reflexivity.
    + unfold outputResult. rewrite Hfs, label_text_capitalize.
      destruct (verbose options).
      * exists [details_line result]. reflexivity.
      * exists []. reflexivity.
  - intros Hd Hfs. unfold outputResult.
    rewrite Hd, label_text_capitalize.
    destruct Hfs as [-> | ->]; destruct (verbose options); reflexivity.
Qed.

(** ** The report *)

Lemma fst_bind A B (m : IO A) (k : A -> IO B) :
  fst (bind m k) = fst (k (fst m)).
Proof. now rewrite bind_eq. Qed.

Lemma snd_bind A B (m : IO A) (k : A -> IO B) :
  snd (bind m k) = snd m ++ snd (k (fst m)).
Proof. now rewrite bind_eq. Qed.

Lemma bind_ret A B (a : A) (k : A -> IO B) : bind (ret a) k = k a.
Proof. unfold bind, ret. now destruct (k a). Qed.

(** [outputResults] is the handling of the formatter followed by the report
    of the result it leaves. *)
Lemma outputResults_report format module_options theme options :
  outputResults format module_options theme options
  = match format theme options with
    | Returns formatted => report module_options formatted options
    | Throws err after =>
        (fst (report module_options after options),
         formatting_errors err ++ snd (report module_options after options))
    end.
Proof.
  unfold report, outputResults.
  destruct (format theme options) as [formatted | err after].
  - reflexivity.
  - rewrite bind_ret. rewrite bind_eq. now f_equal.
Qed.

Lemma report_exit_code module_options theme options :
  fst (report module_options theme options)
  = if (0 <? length (r_error (results theme)))%nat then 1%Z else 0%Z.
Proof.
  unfold report, outputResults. rewrite !fst_bind. cbn [ret fst].
  now destruct (0 <? _)%nat.
Qed.

Lemma report_summary module_options theme options :
  exists rest,
    snd (report module_options theme options)
    = Log [VStr (LF :: getSummary theme options)] :: rest.
Proof.
  unfold report, outputResults. rewrite bind_ret, snd_bind.
  cbn [ui.log snd app]. eexists. reflexivity.
Qed.

(** C1: the exit code is 1 exactly when the error bucket of the result the
    report is rendered from is not empty, and 0 otherwise, whatever the
    other buckets hold. *)
Theorem outputResults_exit_code format module_options theme options :
  let used := rendered format theme options in
  let run := outputResults format module_options theme options in
  fst run = (if lodash.isEmpty (r_error (results used)) then 0 else 1)%Z
  /\ (fst run = 1%Z <-> (0 < length (r_error (results used)))%nat)
  /\ (fst run = 0%Z <-> r_error (results used) = [])
  /\ In (Log [VStr (LF :: getSummary used options)]) (snd run).
Proof.
  cbv zeta. rewrite outputResults_report. unfold rendered.
  assert (H : forall used,
             fst (report module_options used options)
             = (if lodash.isEmpty (r_error (results used)) then 0 else 1)%Z
             /\ (fst (report module_options used options) = 1%Z
                 <-> (0 < length (r_error (results used)))%nat)
             /\ (fst (report module_options used options) = 0%Z
                 <-> r_error (results used) = [])).
  { intros used. rewrite report_exit_code.
    destruct (r_error (results used)); cbn; repeat split;
      intros; try lia; try reflexivity; discriminate. }
  destruct (format theme options) as [formatted | err after];
    cbn [fst snd].
  - destruct (H formatted) as (H1 & H2 & H3). repeat split; try tauto.
    destruct (report_summary module_options formatted options) as [rest ->].
    now left.
  - destruct (H after) as (H1 & H2 & H3). repeat split; try tauto.
    destruct (report_summary module_options after options) as [rest ->].
    apply in_or_app. right. now left.
Qed.

(** C3, as the code has it: when the formatter throws, the two error lines
    are logged, then the report is rendered and the exit code computed from
    the result object that was passed in, in the state the formatter left
    it; this is the original result when the formatter threw before
    changing it. *)
Theorem outputResults_format_throws format module_options theme options
    err after :
  format theme options = Throws err after ->
  outputResults format module_options theme options
  = (fst (report module_options after options),
     formatting_errors err ++ snd (report module_options after options))
  /\ fst (outputResults format module_options theme options)
     = (if lodash.isEmpty (r_error (results after)) then 0 else 1)%Z
  /\ (after = theme ->
      outputResults format module_options theme options
      = (fst (report module_options theme options),
         formatting_errors err ++ snd (report module_options theme options))).
Proof.
  intros H. rewrite outputResults_report, H. cbn [fst].
  split; [reflexivity |]. split.
  - rewrite report_exit_code. now destruct (r_error (results after)).
  - now intros ->.
Qed.

(** ** The checker invocation *)

Lemma eqb_eq a b : eqb a b = true <-> a = b.
Proof.
  revert b. induction a as [| x a IH]; intros [| y b]; cbn [eqb];
    try (split; [discriminate | congruence]); [tauto |].
  rewrite andb_true_iff, N.eqb_eq, IH. split.
  - now intros [-> ->].
  - intros H. now inversion H.
Qed.

Lemma ENOTDIRPredicate_spec err :
  ENOTDIRPredicate err = true <-> code err = Some (lit "ENOTDIR").
Proof.
  unfold ENOTDIRPredicate. destruct (code err) as [c |].
  - rewrite eqb_eq. split; congruence.
  - split; discriminate.
Qed.

(** C2, which the code does not meet: in directory mode a rejection of the
    checker, whatever its code, goes to [ENOTDIRPredicate], the only
    function the built-in [catch] takes; nothing is printed after the
    banner, neither the message of the error nor the hint about the -z flag
    that the second function would print, and the rejection is swallowed.
    In zip mode the error itself is printed.  No report is rendered in
    either case. *)
Theorem main_rejected format check checkZip argv err :
  (zip argv = false ->
   check (themePath argv) (resolve argv) = Rejected err ->
   main format check checkZip argv = (Settled, [banner argv])
   /\ snd (hint_handler err) = [Log [VStr (err_message err)]; zip_hint])
  /\ (zip argv = true ->
      checkZip (themePath argv) (resolve argv) = Rejected err ->
      main format check checkZip argv
      = (Settled, [banner argv; Log [VErr err]])).
Proof.
  assert (Hbanner : forall k : unit -> IO ending,
             bind (if onlyFatalErrors (resolve argv)
                   then ui.log [VStr (chalk.styled colour [chalk.bold]
                          (LF :: lit "Checking theme compatibility (fatal issues only)..."))]
                   else ui.log [VStr (chalk.styled colour [chalk.bold]
                          (LF :: lit "Checking theme compatibility..."))]) k
             = (fst (k tt), banner argv :: snd (k tt))).
  { intros k. rewrite bind_eq. unfold banner. cbn [resolve onlyFatalErrors].
    now destruct (fatal argv). }
  split; intros Hzip Hcheck; unfold main; cbv zeta;
    rewrite Hbanner, Hzip, Hcheck.
  - split; reflexivity.
  - reflexivity.
Qed.

(** ** The version flags *)

(** C5: the checked version is the first flag set in the order v1, v2, v3,
    v4, canary, and "latest" when none is set; with v1 and v3 set it is
    "v1". *)
Theorem resolve_checkVersion argv :
  checkVersion (resolve argv) = first_match (version_flags argv) (lit "latest")
  /\ (checkVersion (resolve argv) = lit "v1" <-> v1 argv = true)
  /\ (checkVersion (resolve argv) = lit "v2"
      <-> v1 argv = false /\ v2 argv = true)
  /\ (checkVersion (resolve argv) = lit "v3"
      <-> v1 argv = false /\ v2 argv = false /\ v3 argv = true)
  /\ (checkVersion (resolve argv) = lit "v4"
      <-> v1 argv = false /\ v2 argv = false /\ v3 argv = false
          /\ v4 argv = true)
  /\ (checkVersion (resolve argv) = lit "canary"
      <-> v1 argv = false /\ v2 argv = false /\ v3 argv = false
          /\ v4 argv = false /\ canary argv = true)
  /\ (checkVersion (resolve argv) = lit "latest"
      <-> v1 argv = false /\ v2 argv = false /\ v3 argv = false
          /\ v4 argv = false /\ canary argv = false)
  /\ (forall f2 f4 fc,
        checkVersion (resolve (with_versions argv true f2 true f4 fc))
        = lit "v1").
Proof.
  split; [reflexivity |].
  unfold resolve. cbn [checkVersion].
  destruct (v1 argv), (v2 argv), (v3 argv), (v4 argv), (canary argv);
    repeat split; intros; try reflexivity; try discriminate;
    repeat match goal with H : _ /\ _ |- _ => destruct H end;
    discriminate.
Qed.

(** * Further properties *)

(** ** The summary *)

Lemma free_count_occ x s : free x s = true -> count_occ N.eq_dec s x = 0%nat.
Proof.
  induction s as [| c s IH]; [reflexivity |].
  rewrite free_cons, andb_true_iff, negb_true_iff, N.eqb_neq.
  intros [Hc Hs]. cbn [count_occ]. destruct (N.eq_dec c x); [contradiction |].
  now apply IH.
Qed.

Lemma dashes_line_breaks k :
  count_occ N.eq_dec (List.repeat dash k) LF = 0%nat.
Proof. induction k as [| k IH]; [reflexivity | exact IH]. Qed.

(** X1: with colour support and with errors and warnings together, both
    phrases are styled, the 38 hidden characters are all there, and the line
    of dashes is exactly as long as the visible sentence. *)
Theorem getSummary_underline_matches theme options :
  colour = true ->
  (0 < length (r_error (results theme)))%nat ->
  (0 < length (r_warning (results theme)))%nat ->
  exists summaryText k,
    getSummary theme options = summaryText ++ LF :: List.repeat dash k
    /\ free LF summaryText = true
    /\ length summaryText = (length (visible summaryText) + 38)%nat
    /\ length (visible summaryText) = k.
Proof.
  intros Hc He Hw.
  assert (H : (0 < length (r_error (results theme))
               \/ 0 < length (r_warning (results theme)))%nat) by lia.
  rewrite (getSummary_issues theme options H).
  set (e := length (r_error (results theme))) in *.
  set (w := length (r_warning (results theme))) in *.
  exists (styled_sentence e w). eexists. split; [reflexivity |].
  split; [apply styled_sentence_free_LF |].
  rewrite visible_styled_sentence, styled_sentence_length, Hc.
  unfold hiddenSymbols.
  destruct (Nat.ltb_spec 0 e), (Nat.ltb_spec 0 w); lia.
Qed.

(** X2: with colour support and with an error or a warning, the count handed
    to [_.repeat] is never below 4: the line of dashes is never empty. *)
Theorem getSummary_underline_at_least theme options :
  colour = true ->
  (0 < length (r_error (results theme))
   \/ 0 < length (r_warning (results theme)))%nat ->
  exists summaryText k,
    getSummary theme options = summaryText ++ LF :: List.repeat dash k
    /\ free LF summaryText = true
    /\ (4 <= Z.of_nat (length summaryText) - hiddenSymbols)%Z
    /\ (4 <= k)%nat.
Proof.
  intros Hc H. rewrite (getSummary_issues theme options H).
  set (e := length (r_error (results theme))) in *.
  set (w := length (r_warning (results theme))) in *.
  exists (styled_sentence e w). eexists. split; [reflexivity |].
  split; [apply styled_sentence_free_LF |].
  pose proof (plain_sentence_length H) as Hlen.
  rewrite styled_sentence_length, Hc. unfold hiddenSymbols.
  destruct (Nat.ltb_spec 0 e), (Nat.ltb_spec 0 w); lia.
Qed.

(** X3: with an error or a warning, the summary has exactly one line break: the
    sentence and the line of dashes. *)
Theorem getSummary_two_lines theme options :
  (0 < length (r_error (results theme))
   \/ 0 < length (r_warning (results theme)))%nat ->
  line_breaks (getSummary theme options) = 1%nat.
Proof.
  intros H. rewrite (getSummary_issues theme options H).
  unfold line_breaks. rewrite count_occ_app.
  rewrite (free_count_occ _ _ (styled_sentence_free_LF _ _)).
  cbn [count_occ]. destruct (N.eq_dec LF LF); [| contradiction].
  now rewrite dashes_line_breaks.
Qed.

(** X4: with an error or a warning, the summary is a function of the two
    counts alone: the findings themselves, the other buckets, the checked
    version and the options do not show in it. *)
Theorem getSummary_counts_only theme options theme' options' :
  length (r_error (results theme)) = length (r_error (results theme')) ->
  length (r_warning (results theme)) = length (r_warning (results theme')) ->
  (0 < length (r_error (results theme))
   \/ 0 < length (r_warning (results theme)))%nat ->
  getSummary theme options = getSummary theme' options'.
Proof.
  intros He Hw H.
  rewrite (getSummary_issues theme options H).
  rewrite He, Hw in H.
  rewrite (getSummary_issues theme' options' H).
  now rewrite He, Hw.
Qed.

(** X5: with exactly one error and no warning, the visible summary reads
    "Your theme has 1 error!", the singular without the plural s, over four
    dashes with colour support and over none without. *)
Theorem getSummary_one_error theme options :
  length (r_error (results theme)) = 1%nat ->
  length (r_warning (results theme)) = 0%nat ->
  visible (getSummary theme options)
  = lit "Your theme has 1 error!"
      ++ LF :: List.repeat dash (if colour then 4 else 0)
  /\ includes (visible (getSummary theme options)) (lit "errors") = false.
Proof.
  intros He Hw.
  assert (H : (0 < length (r_error (results theme))
               \/ 0 < length (r_warning (results theme)))%nat) by lia.
  rewrite (getSummary_issues theme options H), He, Hw.
  unfold styled_sentence. destruct colour; split; vm_compute; reflexivity.
Qed.

(** ** One finding *)

(** X6: in compact mode a finding shows its level, its rule and the refs of its
    failures, nothing else: findings that agree on these are rendered the
    same, whatever their details and failure messages. *)
Theorem outputResult_compact_ignores options result result' :
  verbose options = false ->
  rule result = rule result' ->
  level result = level result' ->
  option_map (List.map ref) (failures result)
  = option_map (List.map ref) (failures result') ->
  snd (outputResult options result) = snd (outputResult options result').
Proof.
  intros Hv Hrule Hlevel Hrefs.
  rewrite !outputResult_trace. unfold finding_lines, failure_lines, label_line.
  rewrite Hv, Hrule, Hlevel. do 2 f_equal.
  destruct (failures result) as [fs |], (failures result') as [fs' |];
    cbn [option_map] in Hrefs; try discriminate; [| reflexivity].
  injection Hrefs as Hrefs. rewrite Hrefs.
  destruct fs, fs'; try discriminate; reflexivity.
Qed.

(** X7: the number of [ui.log] calls for a finding: in compact mode two, and
    one more when there are failures, however many; in verbose mode three,
    and with failures two more plus one per failure. *)
Theorem outputResult_calls options result :
  length (snd (outputResult options result))
  = ((if verbose options then 3 else 2)
     + match failures result with
       | Some fs =>
           if lodash.isEmpty fs then 0
           else if verbose options then 2 + length fs else 1
       | None => 0
       end)%nat.
Proof.
  rewrite outputResult_trace. unfold finding_lines, failure_lines.
  destruct (failures result) as [[| f fs] |], (verbose options);
    cbn [lodash.isEmpty app length]; try reflexivity.
  rewrite length_app, length_map. cbn [length]. lia.
Qed.

(** ** The report *)

Lemma flat_map_finding_lines options bucket :
  flat_map (fun rule => snd (outputResult options rule)) bucket
  = flat_map (finding_lines options) bucket.
Proof.
  apply flat_map_ext. intros rule. apply outputResult_trace.
Qed.

(** The trace of a report: the summary, then the sections of the errors,
    of the warnings and of the recommendations in this order, each with its
    header and absent when its bucket is empty, then the two footer lines. *)
Lemma report_trace module_options theme options :
  snd (report module_options theme options)
  = Log [VStr (LF :: getSummary theme options)]
      :: section error_header module_options (r_error (results theme))
      ++ section warning_header module_options (r_warning (results theme))
      ++ section recommendation_header module_options
           (r_recommendation (results theme))
      ++ footer.
Proof.
  unfold report, outputResults, section. rewrite bind_ret.
  destruct (r_error (results theme)) as [| e es],
           (r_warning (results theme)) as [| w ws],
           (r_recommendation (results theme)) as [| r rs];
    cbn [lodash.isEmpty negb];
    repeat (rewrite ?snd_bind, ?snd_each_flat_map, ?flat_map_finding_lines;
            cbn [snd fst ui.log ret app]);
    unfold error_header, warning_header, recommendation_header, footer;
    cbn [app]; rewrite <- ?app_assoc; reflexivity.
Qed.

Lemma report_pair module_options theme options :
  report module_options theme options
  = (fst (report module_options theme options),
     snd (report module_options theme options)).
Proof. apply surjective_pairing. Qed.

Lemma filter_label_failures fs :
  filter is_label (List.map failure_line fs) = [].
Proof. induction fs as [| f fs IH]; [reflexivity | exact IH]. Qed.

Lemma filter_label_finding options result :
  filter is_label (finding_lines options result) = [label_line result].
Proof.
  unfold finding_lines, failure_lines. cbn [filter label_line is_label].
  f_equal. rewrite !filter_app.
  destruct (verbose options), (failures result) as [[| f fs] |];
    cbn [lodash.isEmpty filter is_label details_line blank_line files_header
         files_line app];
    rewrite ?filter_label_failures; reflexivity.
Qed.

Lemma filter_label_findings options bucket :
  filter is_label (flat_map (finding_lines options) bucket)
  = List.map label_line bucket.
Proof.
  induction bucket as [| result bucket IH]; [reflexivity |].
  cbn [flat_map List.map]. now rewrite filter_app, filter_label_finding, IH.
Qed.

Lemma filter_label_section header options bucket :
  filter is_label header = [] ->
  filter is_label (section header options bucket) = List.map label_line bucket.
Proof.
  intros Hh. unfold section. destruct bucket as [| result bucket];
    [reflexivity |]. cbn [lodash.isEmpty].
  now rewrite filter_app, Hh, filter_label_findings.
Qed.

(** X8: every finding of the error, warning and recommendation buckets is
    rendered once, errors first, then warnings, then recommendations, each
    bucket in its own order: these are the label lines of the report. *)
Theorem report_labels module_options theme options :
  filter is_label (snd (report module_options theme options))
  = List.map label_line
      (r_error (results theme) ++ r_warning (results theme)
         ++ r_recommendation (results theme)).
Proof.
  rewrite report_trace. cbn [filter is_label].
  rewrite !filter_app, !filter_label_section by reflexivity.
  cbn [footer filter is_label]. now rewrite app_nil_r, !map_app.
Qed.

(** X9: the feature bucket is never rendered and never counted: the report and
    the exit code are the same whatever it holds. *)
Theorem report_ignores_features module_options theme options features :
  report module_options (with_features theme features) options
  = report module_options theme options.
Proof.
  rewrite (report_pair module_options theme options),
          (report_pair module_options (with_features theme features) options).
  now rewrite !report_exit_code, !report_trace.
Qed.

(** X10: a result without error, warning and recommendation is reported in three
    calls of [ui.log], the success line and the two footer lines, with exit
    code 0. *)
Theorem report_clean module_options theme options :
  r_error (results theme) = [] ->
  r_warning (results theme) = [] ->
  r_recommendation (results theme) = [] ->
  report module_options theme options
  = (0%Z,
     Log [VStr (LF :: chalk.styled colour [chalk.green] checkSymbol
                  ++ (if onlyFatalErrors options
                      then lit " Your theme has no fatal compatibility issues with Ghost "
                      else lit " Your theme is compatible with Ghost ")
                  ++ checkedVersion theme)]
       :: footer).
Proof.
  intros He Hw Hr. rewrite report_pair, report_exit_code, report_trace.
  unfold getSummary, section. rewrite He, Hw, Hr.
  cbn [length Nat.eqb andb Nat.ltb Nat.leb lodash.isEmpty app].
  now destruct (onlyFatalErrors options).
Qed.

(** X11: of the options handed to [outputResults], the report reads only
    [onlyFatalErrors]; the compact or verbose rendering of the findings
    follows the module-level object. *)
Theorem report_options module_options theme options options' :
  onlyFatalErrors options = onlyFatalErrors options' ->
  report module_options theme options = report module_options theme options'.
Proof.
  intros H.
  rewrite (report_pair module_options theme options),
          (report_pair module_options theme options').
  rewrite !report_exit_code, !report_trace.
  unfold getSummary. now rewrite H.
Qed.

Lemma filter_error_log_failures fs :
  filter is_error_log (List.map failure_line fs) = [].
Proof. induction fs as [| f fs IH]; [reflexivity | exact IH]. Qed.

Lemma filter_error_log_findings options bucket :
  filter is_error_log (flat_map (finding_lines options) bucket) = [].
Proof.
  induction bucket as [| result bucket IH]; [reflexivity |].
  cbn [flat_map]. rewrite filter_app, IH, app_nil_r.
  unfold finding_lines, failure_lines. cbn [filter label_line is_error_log].
  rewrite !filter_app.
  destruct (verbose options), (failures result) as [[| f fs] |];
    cbn [lodash.isEmpty filter is_error_log details_line blank_line
         files_header files_line app];
    rewrite ?filter_error_log_failures; reflexivity.
Qed.

Lemma filter_error_log_section header options bucket :
  filter is_error_log header = [] ->
  filter is_error_log (section header options bucket) = [].
Proof.
  intros Hh. unfold section. destruct bucket as [| result bucket];
    [reflexivity |]. cbn [lodash.isEmpty].
  now rewrite filter_app, Hh, filter_error_log_findings.
Qed.

(** X12: [ui.log.error] is called for a failure of the formatter and for nothing
    else: twice when it throws, never when it returns. *)
Theorem outputResults_error_logs format module_options theme options :
  filter is_error_log (snd (outputResults format module_options theme options))
  = match format theme options with
    | Returns _ => []
    | Throws err _ => formatting_errors err
    end.
Proof.
  assert (H : forall used,
             filter is_error_log (snd (report module_options used options))
             = []).
  { intros used. rewrite report_trace. cbn [filter is_error_log].
    rewrite !filter_app, !filter_error_log_section by reflexivity.
    reflexivity. }
  rewrite outputResults_report.
  destruct (format theme options) as [formatted | err after]; cbn [snd].
  - apply H.
  - rewrite filter_app, H. cbn. reflexivity.
Qed.

(** ** The handler *)

Lemma main_banner format check checkZip argv :
  main format check checkZip argv
  = match selected check checkZip argv with
    | Fulfilled theme =>
        (Exit (fst (outputResults format (resolve argv) theme (resolve argv))),
         banner argv
           :: snd (outputResults format (resolve argv) theme (resolve argv)))
    | Rejected err =>
        (Settled, banner argv :: if zip argv then [Log [VErr err]] else [])
    end.
Proof.
  unfold main, selected, banner. cbv zeta. rewrite bind_eq.
  change (onlyFatalErrors (resolve argv)) with (fatal argv).
  assert (Hend : forall m : IO Z,
             bind m (fun status => ret (Exit status))
             = (Exit (fst m), snd m)).
  { intros m. rewrite bind_eq. cbn [ret fst snd]. now rewrite app_nil_r. }
  destruct (fatal argv); cbn [snd ui.log app];
    (destruct (zip argv);
     [ destruct (checkZip (themePath argv) (resolve argv)) as [theme | err];
       [now rewrite Hend | reflexivity]
     | destruct (check (themePath argv) (resolve argv)) as [theme | err];
       [now rewrite Hend | reflexivity] ]).
Qed.

(** X13: when the selected entry point of the checker fulfils, the handler
    prints the banner and the report of [outputResults], rendered with the
    options resolved from the flags, and exits with 1 when the result the
    report is rendered from has errors, with 0 otherwise. *)
Theorem main_fulfilled format check checkZip argv theme :
  selected check checkZip argv = Fulfilled theme ->
  main format check checkZip argv
  = (Exit (if lodash.isEmpty
                (r_error (results (rendered format theme (resolve argv))))
           then 0 else 1)%Z,
     banner argv
       :: snd (outputResults format (resolve argv) theme (resolve argv))).
Proof.
  intros H. rewrite main_banner, H. do 2 f_equal.
  rewrite outputResults_report. unfold rendered.
  destruct (format theme (resolve argv)) as [formatted | err after];
    cbn [fst]; rewrite report_exit_code;
    now destruct (r_error (results _)).
Qed.

(** X14: only the entry point chosen by the zip flag is consulted: with the flag
    the outcome does not depend on [gscan.check], without it not on
    [gscan.checkZip]. *)
Theorem main_one_entry_point format check checkZip check' checkZip' argv :
  (zip argv = true ->
   main format check checkZip argv = main format check' checkZip argv)
  /\ (zip argv = false ->
      main format check checkZip argv = main format check checkZip' argv).
Proof.
  split; intros Hzip; rewrite !main_banner; unfold selected;
    now rewrite Hzip.
Qed.

(** X15: whatever the checker does, the first thing printed is the banner, in
    the wording chosen by the fatal flag. *)
Theorem main_banner_first format check checkZip argv :
  exists rest,
    snd (main format check checkZip argv)
    = Log [VStr (chalk.styled colour [chalk.bold]
                   (LF :: (if fatal argv
                           then lit "Checking theme compatibility (fatal issues only)..."
                           else lit "Checking theme compatibility...")))]
        :: rest.
Proof.
  rewrite main_banner. unfold banner.
  destruct (selected check checkZip argv); eexists; reflexivity.
Qed.

(** X16: [process.exit] is called exactly when the selected entry point
    fulfils, and then with 0 or 1; when it rejects, the handler ends without
    an exit code, after the banner and, in zip mode only, the error. *)
Theorem main_ending format check checkZip argv :
  match fst (main format check checkZip argv) with
  | Exit status =>
      (status = 0 \/ status = 1)%Z
      /\ exists theme, selected check checkZip argv = Fulfilled theme
  | Settled =>
      exists err,
        selected check checkZip argv = Rejected err
        /\ snd (main format check checkZip argv)
           = banner argv :: if zip argv then [Log [VErr err]] else []
  end.
Proof.
  rewrite main_banner.
  destruct (selected check checkZip argv) as [theme | err] eqn:Hs; cbn [fst snd].
  - split; [| now exists theme].
    rewrite outputResults_report.
    destruct (format theme (resolve argv)) as [formatted | e after];
      cbn [fst]; rewrite report_exit_code;
      destruct (0 <? _)%nat; auto.
  - now exists err.
Qed.

End Colour.

(** * The properties at sample inputs *)

Lemma getSummary_sentence_witness :
  let theme := theme_of [bare_finding; bare_finding]
                        [bare_finding; bare_finding; bare_finding] in
  (0 < length (r_error (results theme)))%nat
  /\ visible (getSummary true theme (cli_options false))
     = lit "Your theme has 2 errors and 3 warnings!"
         ++ LF :: List.repeat dash 39
  /\ includes (visible (getSummary true theme (cli_options false)))
              (lit "2 errors and 3 warnings!") = true.
Proof.
  cbv zeta. split; [apply Nat.lt_0_succ |]. split; [reflexivity |].
  exact (proj2 (proj2 (@getSummary_sentence true
                         (theme_of [bare_finding; bare_finding]
                                   [bare_finding; bare_finding; bare_finding])
                         (cli_options false)
                         (or_introl (Nat.lt_0_succ 1))))
               eq_refl eq_refl).
Defined.



Lemma getSummary_underline_single_phrase_witness :
  (0 < length (r_error (results (theme_of [bare_finding] []))))%nat
  /\ length (r_warning (results (theme_of [bare_finding] []))) = 0%nat
  /\ exists summaryText k,
       getSummary true (theme_of [bare_finding] []) (cli_options false)
       = summaryText ++ LF :: List.repeat dash k
       /\ free LF summaryText = true
       /\ length summaryText = (length (visible summaryText) + 19)%nat
       /\ Z.of_nat k = (Z.of_nat (length summaryText) - 38)%Z
       /\ length (visible summaryText) = (k + 19)%nat.
Proof.
  split; [apply Nat.lt_0_succ |]. split; [reflexivity |].
  apply (@getSummary_underline_single_phrase true (theme_of [bare_finding] [])
           (cli_options false) eq_refl).
  left. split; [apply Nat.lt_0_succ | reflexivity].
Defined.

(** Without colour support and with one error, no styling character is
    added to the 23 visible ones, and no dash follows: the line of dashes
    is 23 shorter than the visible sentence, not 19. *)
Lemma getSummary_underline_single_phrase_counterexample :
  getSummary false (theme_of [bare_finding] []) (cli_options false)
  = lit "Your theme has 1 error!" ++ LF :: List.repeat dash 0
  /\ free LF (lit "Your theme has 1 error!") = true
  /\ length (lit "Your theme has 1 error!")
     = length (visible (lit "Your theme has 1 error!"))
  /\ length (visible (lit "Your theme has 1 error!")) <> (0 + 19)%nat.
Proof. repeat split. discriminate. Qed.

Lemma getSummary_success_witness :
  length (r_error (results (theme_of [] []))) = 0%nat
  /\ getSummary true (theme_of [] []) (cli_options false)
     = chalk.styled true [chalk.green] [10003]
         ++ lit " Your theme is compatible with Ghost 4.x"
  /\ visible (getSummary true (theme_of [] []) (cli_options false))
     = 10003 :: lit " Your theme is compatible with Ghost 4.x".
Proof.
  split; [reflexivity |].
  destruct (@getSummary_success true (theme_of [] []) (cli_options false)
              eq_refl eq_refl) as (Hs & Hv & _).
  split; [exact Hs | exact Hv].
Defined.

Lemma outputResult_bare_witness :
  details bare_finding = None
  /\ snd (outputResult true (cli_options false) bare_finding)
     = [label_line true bare_finding; blank_line].
Proof.
  split; [reflexivity |].
  exact (proj2 (@outputResult_bare true (cli_options false) bare_finding)
               eq_refl (or_introl eq_refl)).
Defined.

(** In verbose mode a finding without details and failures is rendered with
    three lines, not two. *)
Lemma outputResult_bare_verbose_counterexample :
  details bare_finding = None /\ failures bare_finding = None
  /\ snd (outputResult true (cli_options true) bare_finding)
     <> [label_line true bare_finding; blank_line].
Proof. repeat split. discriminate. Qed.

Lemma outputResult_failures_witness :
  failures finding_with_failures = Some two_failures
  /\ snd (outputResult true (cli_options false) finding_with_failures)
     = [label_line true finding_with_failures;
        Log [VStr (chalk.styled true [chalk.bold] (lit "Files:")
                     ++ lit " index.hbs,post.hbs")];
        blank_line]
  /\ snd (outputResult true (cli_options true) finding_with_failures)
     = [label_line true finding_with_failures;
        details_line true finding_with_failures;
        blank_line; files_header true;
        Log [VStr (lit "index.hbs - first")];
        Log [VStr (lit "post.hbs - second")];
        blank_line].
Proof.
  split; [reflexivity |]. split.
  - apply (@outputResult_failures true (cli_options false)
             finding_with_failures two_failures eq_refl).
    discriminate.
  - apply (@outputResult_failures true (cli_options true)
             finding_with_failures two_failures eq_refl).
    discriminate.
Defined.

Lemma outputResults_format_throws_witness :
  let theme := theme_of [bare_finding] [] in
  let options := cli_options false in
  format_fails_early theme options = Throws thrown theme
  /\ outputResults true format_fails_early options theme options
     = (1%Z,
        formatting_errors thrown ++ snd (report true options theme options)).
Proof.
  cbv zeta. split; [reflexivity |].
  exact (proj2 (proj2 (@outputResults_format_throws true format_fails_early
                         (cli_options false) (theme_of [bare_finding] [])
                         (cli_options false) thrown
                         (theme_of [bare_finding] []) eq_refl))
               eq_refl).
Defined.

(** A formatter that empties the error bucket before it throws: the exit
    code is 0, the exit code of the original result is 1. *)
Lemma outputResults_format_throws_counterexample :
  let theme := theme_of [bare_finding] [] in
  let options := cli_options false in
  format_half_done theme options = Throws thrown (theme_of [] [])
  /\ fst (outputResults true format_half_done options theme options) = 0%Z
  /\ fst (report true options theme options) = 1%Z
  /\ outputResults true format_half_done options theme options
     <> (fst (report true options theme options),
         formatting_errors thrown ++ snd (report true options theme options)).
Proof.
  cbv zeta. repeat split.
  intros H. apply (f_equal fst) in H. vm_compute in H. discriminate.
Qed.

Lemma main_rejected_witness :
  main true (fun theme _ => Returns theme)
       (fun _ _ => Rejected not_a_directory) (fun _ _ => Rejected no_such_file)
       (argv_of false)
  = (Settled, [banner true (argv_of false)])
  /\ snd (hint_handler not_a_directory)
     = [Log [VStr (lit "ENOTDIR: not a directory, scandir 'theme.zip'")];
        Log [VStr (lit "Did you mean to add the -z flag to read a zip file?")]]
  /\ main true (fun theme _ => Returns theme)
       (fun _ _ => Rejected no_such_file) (fun _ _ => Rejected not_a_directory)
       (argv_of true)
     = (Settled, [banner true (argv_of true); Log [VErr not_a_directory]]).
Proof.
  destruct (proj1 (@main_rejected true (fun theme _ => Returns theme)
                     (fun _ _ => Rejected not_a_directory)
                     (fun _ _ => Rejected no_such_file)
                     (argv_of false) not_a_directory) eq_refl eq_refl)
    as [Hmain Hhint].
  split; [exact Hmain |]. split; [exact Hhint |].
  apply (proj2 (@main_rejected true (fun theme _ => Returns theme)
                  (fun _ _ => Rejected no_such_file)
                  (fun _ _ => Rejected not_a_directory)
                  (argv_of true) not_a_directory));
    reflexivity.
Defined.

Lemma getSummary_underline_matches_witness :
  let theme := theme_of [bare_finding] [bare_finding] in
  (0 < length (r_error (results theme)))%nat
  /\ (0 < length (r_warning (results theme)))%nat
  /\ exists summaryText k,
       getSummary true theme (cli_options false)
       = summaryText ++ LF :: List.repeat dash k
       /\ free LF summaryText = true
       /\ length summaryText = (length (visible summaryText) + 38)%nat
       /\ length (visible summaryText) = k.
Proof.
  cbv zeta. split; [apply Nat.lt_0_succ |]. split; [apply Nat.lt_0_succ |].
  apply (@getSummary_underline_matches true
           (theme_of [bare_finding] [bare_finding]) (cli_options false)
           eq_refl);
    apply Nat.lt_0_succ.
Defined.

Lemma getSummary_underline_at_least_witness :
  (0 < length (r_warning (results (theme_of [] [bare_finding]))))%nat
  /\ exists summaryText k,
       getSummary true (theme_of [] [bare_finding]) (cli_options false)
       = summaryText ++ LF :: List.repeat dash k
       /\ free LF summaryText = true
       /\ (4 <= Z.of_nat (length summaryText) - hiddenSymbols)%Z
       /\ (4 <= k)%nat.
Proof.
  split; [apply Nat.lt_0_succ |].
  apply (@getSummary_underline_at_least true (theme_of [] [bare_finding])
           (cli_options false) eq_refl).
  right. apply Nat.lt_0_succ.
Defined.

Lemma getSummary_two_lines_witness :
  (0 < length (r_error (results (theme_of [bare_finding] []))))%nat
  /\ line_breaks (getSummary true (theme_of [bare_finding] [])
                    (cli_options true)) = 1%nat
  /\ line_breaks (getSummary false (theme_of [bare_finding] [])
                    (cli_options true)) = 1%nat.
Proof.
  split; [apply Nat.lt_0_succ |]. split.
  - apply (@getSummary_two_lines true). left. apply Nat.lt_0_succ.
  - apply (@getSummary_two_lines false). left. apply Nat.lt_0_succ.
Defined.

Lemma getSummary_counts_only_witness :
  getSummary true (theme_of [bare_finding] []) (cli_options false)
  = getSummary true
      {| checkedVersion := lit "3.x";
         results := {| r_error := [finding_with_failures]; r_warning := [];
                       r_recommendation := [bare_finding];
                       r_feature := [bare_finding] |} |}
      {| format_ := lit "cli"; checkVersion := lit "v3";
         verbose := true; onlyFatalErrors := true |}.
Proof.
  apply (@getSummary_counts_only true);
    [reflexivity | reflexivity | left; apply Nat.lt_0_succ].
Defined.

Lemma getSummary_one_error_witness :
  length (r_error (results (theme_of [finding_with_failures] []))) = 1%nat
  /\ visible (getSummary true (theme_of [finding_with_failures] [])
                (cli_options false))
     = lit "Your theme has 1 error!" ++ LF :: List.repeat dash 4
  /\ visible (getSummary false (theme_of [finding_with_failures] [])
                (cli_options false))
     = lit "Your theme has 1 error!" ++ [LF]
  /\ includes
       (visible (getSummary true (theme_of [finding_with_failures] [])
                            (cli_options false)))
       (lit "errors") = false.
Proof.
  split; [reflexivity |].
  split; [exact (proj1 (@getSummary_one_error true
                          (theme_of [finding_with_failures] [])
                          (cli_options false) eq_refl eq_refl)) |].
  split; [exact (proj1 (@getSummary_one_error false
                          (theme_of [finding_with_failures] [])
                          (cli_options false) eq_refl eq_refl)) |].
  exact (proj2 (@getSummary_one_error true
                  (theme_of [finding_with_failures] [])
                  (cli_options false) eq_refl eq_refl)).
Defined.

Lemma outputResult_compact_ignores_witness :
  snd (outputResult true (cli_options false) finding_with_failures)
  = snd (outputResult true (cli_options false)
           {| rule := lit "GS001-DEPR-PURL"; level := warning;
              details := None;
              failures :=
                Some [ {| ref := lit "index.hbs"; message := [] |};
                       {| ref := lit "post.hbs"; message := lit "other" |} ] |}).
Proof.
  apply (@outputResult_compact_ignores true); reflexivity.
Defined.

Lemma report_clean_witness :
  r_error (results (with_features (theme_of [] []) [bare_finding])) = []
  /\ report true (cli_options true)
            (with_features (theme_of [] []) [bare_finding])
            (cli_options true)
     = (0%Z,
        Log [VStr (LF :: chalk.styled true [chalk.green] checkSymbol
                     ++ lit " Your theme is compatible with Ghost 4.x")]
          :: footer true).
Proof.
  split; [reflexivity |].
  exact (@report_clean true (cli_options true)
           (with_features (theme_of [] []) [bare_finding]) (cli_options true)
           eq_refl eq_refl eq_refl).
Defined.

Lemma report_options_witness :
  report true (cli_options false) (theme_of [finding_with_failures] [])
         (cli_options true)
  = report true (cli_options false) (theme_of [finding_with_failures] [])
           (cli_options false).
Proof. apply (@report_options true). reflexivity. Defined.

Lemma main_fulfilled_witness :
  main true (fun theme _ => Returns theme)
       (fun _ _ => Rejected no_such_file)
       (fun _ _ => Fulfilled (theme_of [bare_finding] []))
       (argv_of true)
  = (Exit 1,
     banner true (argv_of true)
       :: snd (report true (resolve (argv_of true))
                 (theme_of [bare_finding] []) (resolve (argv_of true)))).
Proof.
  exact (@main_fulfilled true (fun theme _ => Returns theme)
           (fun _ _ => Rejected no_such_file)
           (fun _ _ => Fulfilled (theme_of [bare_finding] []))
           (argv_of true) (theme_of [bare_finding] []) eq_refl).
Defined.

Lemma main_one_entry_point_witness :
  main true (fun theme _ => Returns theme)
       (fun _ _ => Rejected not_a_directory)
       (fun _ _ => Fulfilled (theme_of [] [])) (argv_of true)
  = main true (fun theme _ => Returns theme)
         (fun _ _ => Fulfilled (theme_of [bare_finding] []))
         (fun _ _ => Fulfilled (theme_of [] [])) (argv_of true)
  /\ main true (fun theme _ => Returns theme)
          (fun _ _ => Fulfilled (theme_of [] []))
          (fun _ _ => Rejected not_a_directory) (argv_of false)
     = main true (fun theme _ => Returns theme)
            (fun _ _ => Fulfilled (theme_of [] []))
            (fun _ _ => Fulfilled (theme_of [bare_finding] []))
            (argv_of false).
Proof.
  split.
  - apply (proj1 (@main_one_entry_point true (fun theme _ => Returns theme)
                    (fun _ _ => Rejected not_a_directory)
                    (fun _ _ => Fulfilled (theme_of [] []))
                    (fun _ _ => Fulfilled (theme_of [bare_finding] []))
                    (fun _ _ => Fulfilled (theme_of [] []))
                    (argv_of true))).
    reflexivity.
  - apply (proj2 (@main_one_entry_point true (fun theme _ => Returns theme)
                    (fun _ _ => Fulfilled (theme_of [] []))
                    (fun _ _ => Rejected not_a_directory)
                    (fun _ _ => Fulfilled (theme_of [] []))
                    (fun _ _ => Fulfilled (theme_of [bare_finding] []))
                    (argv_of false))).
    reflexivity.
Defined.
